(** * Instrumented Prisma client wrapper ([server/src/db/postgres.ts])

    A shallow embedding of the module that builds the shared Prisma client:
    the environment flag and the client options, the process-wide singleton
    slot, the [$allOperations] query extension that times and logs every
    call, the [gracefulExit] routine and the listeners the module registers.

    The module is effectful: it reads the clock, writes to the console,
    reads and writes [globalThis.__prisma__], constructs a client and calls
    into the Prisma engine.  These effects are threaded through a small
    state-and-exception monad over a [Process] record.  An [await] is modelled
    as a sequential call: interleavings with other tasks of the event loop
    are outside the model. *)

From Stdlib Require Import ZArith List String Bool Lia DecimalString.
From Stdlib Require DecimalPos DecimalZ.
Import ListNotations.

Local Open Scope string_scope.

(** ** JavaScript values *)

(** The values an operation can resolve to, and the values that can be
    thrown.  Numbers carry an integer payload, with [JsNaN] apart: the code
    under study looks at a number only through its truthiness and its
    [typeof]. *)
#[warnings="-register-all"]
Inductive JsValue : Type :=
| JsUndefined
| JsNull
| JsBoolean (b : bool)
| JsNumber (n : Z)
| JsNaN
| JsBigInt (n : Z)
| JsString (s : string)
| JsSymbol (description : string)
| JsFunction (name : string)
| JsObject (props : list (string * JsValue))
| JsArray (elems : list JsValue).

(** [Array.isArray(v)], with the elements of the array when it holds. *)
Definition Array_isArray (v : JsValue) : option (list JsValue) :=
  match v with
  | JsArray elems => Some elems
  | _ => None
  end.

(** [typeof v] *)
Definition typeof (v : JsValue) : string :=
  match v with
  | JsUndefined => "undefined"
  | JsNull => "object"
  | JsBoolean _ => "boolean"
  | JsNumber _ => "number"
  | JsNaN => "number"
  | JsBigInt _ => "bigint"
  | JsString _ => "string"
  | JsSymbol _ => "symbol"
  | JsFunction _ => "function"
  | JsObject _ => "object"
  | JsArray _ => "object"
  end.

(** The abstract operation ToBoolean, used by [&&] and by [? :]. *)
Definition ToBoolean (v : JsValue) : bool :=
  match v with
  | JsUndefined | JsNull | JsNaN => false
  | JsBoolean b => b
  | JsNumber n => negb (n =? 0)%Z
  | JsBigInt n => negb (n =? 0)%Z
  | JsString s => negb (s =? "")
  | JsSymbol _ | JsFunction _ | JsObject _ | JsArray _ => true
  end.

(** [a && b]: the left operand when it is falsy, the right one otherwise. *)
Definition js_and (a b : JsValue) : JsValue :=
  if ToBoolean a then b else a.

(** [a === b] on two strings, as a JavaScript boolean. *)
Definition strict_eq_string (a b : string) : JsValue :=
  JsBoolean (a =? b).

(** The text a template literal substitutes for an integral number. *)
Definition Number_toString (n : Z) : string :=
  NilZero.string_of_int (Z.to_int n).

(** [result.length] of an array. *)
Definition Array_length (elems : list JsValue) : Z :=
  Z.of_nat (List.length elems).

(** ** Environment flag and client options (lines 5-13) *)

Inductive LogLevel : Type := LogInfo | LogQuery | LogWarn | LogError.

Inductive ErrorFormat : Type := FormatPretty | FormatColorless | FormatMinimal.

Record PrismaClientOptions : Type := mkOptions {
  log : list LogLevel;
  errorFormat : ErrorFormat
}.

(** [process.env.NODE_ENV === "production"]; an unset variable is
    [undefined], which is not equal to any string. *)
Definition isProd (NODE_ENV : option string) : bool :=
  match NODE_ENV with
  | Some v => v =? "production"
  | None => false
  end.

Definition prismaLog (NODE_ENV : option string) : list LogLevel :=
  if isProd NODE_ENV
  then [LogWarn; LogError]
  else [LogInfo; LogWarn; LogError].

Definition prismaOptions (NODE_ENV : option string) : PrismaClientOptions :=
  {| log := prismaLog NODE_ENV;
     errorFormat := if isProd NODE_ENV then FormatMinimal else FormatPretty |}.

(** ** The process *)

(** A client object: its identity and the options it was constructed with. *)
Record PrismaClient : Type := mkClient {
  clientId : nat;
  clientOptions : PrismaClientOptions
}.

Inductive Stream : Type := Stdout | Stderr.

(** One call to [console.log] (on [Stdout]) or [console.error] (on [Stderr]):
    the text of its first argument and the further arguments. *)
Record LogLine : Type := mkLine {
  stream : Stream;
  text : string;
  extra : list JsValue
}.

(** A call into the client, as a mock of the client would record it. *)
Inductive ClientCall : Type :=
| CallQuery (args : JsValue)
| CallDisconnect (client : nat).

(** The listeners the module registers, as closures over the module's
    constants: [() => void gracefulExit(signal)] and the [beforeExit]
    arrow function. *)
Inductive Listener : Type :=
| SignalListener (signal : string)
| BeforeExitListener.

(** How a call completes: normally with a value, or by throwing one. *)
Inductive Completion (A : Type) : Type :=
| Normal (a : A)
| Thrown (e : JsValue).
Arguments Normal {A} a.
Arguments Thrown {A} e.

(** [whole] contains [part]. *)
Definition mentions (part whole : string) : Prop :=
  exists before after, whole = before ++ part ++ after.

Section Wrapper.

(** The state of the Prisma engine and of the database behind it. *)
Variable Engine : Type.

Record Process : Type := mkProcess {
  clock : Z;                                 (* what [Date.now()] returns *)
  console : list LogLine;                    (* lines written by this module *)
  globalSlot : option PrismaClient;          (* [globalThis.__prisma__] *)
  constructed : list PrismaClient;           (* every [new PrismaClient] so far *)
  journal : list ClientCall;                 (* calls made into the client *)
  processListeners : list (string * Listener);  (* [process.on] *)
  clientListeners : list (nat * string * Listener); (* [client.$on] *)
  engine : Engine
}.

(** The behaviour of an operation of the engine: from the engine's state and
    the time at the call to a completion, the engine's new state and the
    time at which the promise settles. *)
Definition Extern (A : Type) : Type :=
  Engine -> Z -> Completion A * Engine * Z.

(** Computations of the module. *)
Definition M (A : Type) : Type := Process -> Completion A * Process.

Definition ret {A} (a : A) : M A := fun p => (Normal a, p).

Definition throw {A} (e : JsValue) : M A := fun p => (Thrown e, p).

Definition bind {A B} (m : M A) (k : A -> M B) : M B :=
  fun p =>
    match m p with
    | (Normal a, p') => k a p'
    | (Thrown e, p') => (Thrown e, p')
    end.

(** [try { m } catch (e) { handler e }] *)
Definition try_catch {A} (m : M A) (handler : JsValue -> M A) : M A :=
  fun p =>
    match m p with
    | (Normal a, p') => (Normal a, p')
    | (Thrown e, p') => handler e p'
    end.

Notation "x <- m ;; k" := (bind m (fun x => k))
  (at level 61, m at next level, right associativity).
Notation "m ;; k" := (bind m (fun _ => k))
  (at level 61, right associativity).

(** [Date.now()] *)
Definition Date_now : M Z := fun p => (Normal (clock p), p).

Definition write_line (l : LogLine) : M unit :=
  fun p =>
    (Normal tt,
     {| clock := clock p;
        console := (console p ++ [l])%list;
        globalSlot := globalSlot p;
        constructed := constructed p;
        journal := journal p;
        processListeners := processListeners p;
        clientListeners := clientListeners p;
        engine := engine p |}).

(** [console.log(text)] *)
Definition console_log (t : string) : M unit :=
  write_line {| stream := Stdout; text := t; extra := [] |}.

(** [console.error(text, ...more)] *)
Definition console_error (t : string) (more : list JsValue) : M unit :=
  write_line {| stream := Stderr; text := t; extra := more |}.

(** [await] of a call into the client: the call is recorded, the engine
    moves and time passes. *)
Definition await_call {A} (c : ClientCall) (behaviour : Extern A) : M A :=
  fun p =>
    match behaviour (engine p) (clock p) with
    | (r, engine', clock') =>
        (r,
         {| clock := clock';
            console := console p;
            globalSlot := globalSlot p;
            constructed := constructed p;
            journal := (journal p ++ [c])%list;
            processListeners := processListeners p;
            clientListeners := clientListeners p;
            engine := engine' |})
    end.

(** ** The query extension (lines 32-56) *)

(** The size hint of the success line. *)
Definition sizeHint (result : JsValue) : string :=
  match Array_isArray result with
  | Some elems => " items=" ++ Number_toString (Array_length elems)
  | None =>
      if ToBoolean (js_and result (strict_eq_string (typeof result) "object"))
      then " item=1"
      else ""
  end.

Definition successLine (model operation : string) (ms : Z) (size : string)
  : string :=
  "[prisma] " ++ model ++ "." ++ operation ++ " (" ++ Number_toString ms
    ++ " ms)" ++ size.

Definition failureLine (model operation : string) (ms : Z) : string :=
  "[prisma] " ++ model ++ "." ++ operation ++ " FAILED after "
    ++ Number_toString ms ++ " ms".

(** The [$allOperations] hook.  [query] is the next step of the call, which
    the client hands to the hook. *)
Definition allOperations (NODE_ENV : option string)
    (model operation : string) (args : JsValue)
    (query : JsValue -> Extern JsValue) : M JsValue :=
  start <- Date_now ;;
  try_catch
    (result <- await_call (CallQuery args) (query args) ;;
     now <- Date_now ;;
     let ms := (now - start)%Z in
     (if negb (isProd NODE_ENV)
      then console_log (successLine model operation ms (sizeHint result))
      else ret tt) ;;
     ret result)
    (fun e =>
       now <- Date_now ;;
       let ms := (now - start)%Z in
       console_error (failureLine model operation ms) [] ;;
       throw e).

(** The same operation on the client without the extension. *)
Definition unwrapped (args : JsValue) (query : JsValue -> Extern JsValue)
  : M JsValue :=
  await_call (CallQuery args) (query args).

(** ** The singleton (lines 15-26) *)

(** [new PrismaClient(options)]: a client object with a fresh identity. *)
Definition new_PrismaClient (options : PrismaClientOptions) : M PrismaClient :=
  fun p =>
    let c := {| clientId := List.length (constructed p);
                clientOptions := options |} in
    (Normal c,
     {| clock := clock p;
        console := console p;
        globalSlot := globalSlot p;
        constructed := (constructed p ++ [c])%list;
        journal := journal p;
        processListeners := processListeners p;
        clientListeners := clientListeners p;
        engine := engine p |}).

(** Reading [globalThis.__prisma__]. *)
Definition get_global : M (option PrismaClient) :=
  fun p => (Normal (globalSlot p), p).

(** [globalThis.__prisma__ = c] *)
Definition set_global (c : PrismaClient) : M unit :=
  fun p =>
    (Normal tt,
     {| clock := clock p;
        console := console p;
        globalSlot := Some c;
        constructed := constructed p;
        journal := journal p;
        processListeners := processListeners p;
        clientListeners := clientListeners p;
        engine := engine p |}).

Definition createBaseClient (NODE_ENV : option string) : M PrismaClient :=
  new_PrismaClient (prismaOptions NODE_ENV).

(** [const base = globalThis.__prisma__ ?? createBaseClient();
     if (!isProd) globalThis.__prisma__ = base;] *)
Definition base (NODE_ENV : option string) : M PrismaClient :=
  slot <- get_global ;;
  b <- match slot with
       | Some c => ret c
       | None => createBaseClient NODE_ENV
       end ;;
  (if negb (isProd NODE_ENV) then set_global b else ret tt) ;;
  ret b.

(** ** Shutdown (lines 58-80) *)

(** The behaviour of [$disconnect] on a client; the extended client
    [prisma] forwards the call to the client it extends. *)
Variable disconnect : PrismaClient -> Extern unit.

Definition prisma_disconnect (b : PrismaClient) : M unit :=
  await_call (CallDisconnect (clientId b)) (disconnect b).

Definition gracefulExit (b : PrismaClient) (signal : string) : M unit :=
  try_catch
    (console_log
       ("[prisma] Received " ++ signal ++ ". Closing DB connections...") ;;
     prisma_disconnect b)
    (fun err => console_error "[prisma] Error during disconnect:" [err]).

(** The arrow function given to [$on("beforeExit", ...)]. *)
Definition beforeExit (NODE_ENV : option string) (b : PrismaClient) : M unit :=
  (if negb (isProd NODE_ENV)
   then console_log "[prisma] beforeExit ⇒ disconnect"
   else ret tt) ;;
  prisma_disconnect b.

(** [void m]: the call is started and its promise is dropped, so neither its
    value nor its rejection reaches the caller. *)
Definition void {A} (m : M A) : M unit :=
  fun p => (Normal tt, snd (m p)).

(** [process.on(event, listener)] *)
Definition process_on (event : string) (l : Listener) : M unit :=
  fun p =>
    (Normal tt,
     {| clock := clock p;
        console := console p;
        globalSlot := globalSlot p;
        constructed := constructed p;
        journal := journal p;
        processListeners := (processListeners p ++ [(event, l)])%list;
        clientListeners := clientListeners p;
        engine := engine p |}).

(** [client.$on(event, listener)] *)
Definition client_on (c : PrismaClient) (event : string) (l : Listener)
  : M unit :=
  fun p =>
    (Normal tt,
     {| clock := clock p;
        console := console p;
        globalSlot := globalSlot p;
        constructed := constructed p;
        journal := journal p;
        processListeners := processListeners p;
        clientListeners :=
          (clientListeners p ++ [(clientId c, event, l)])%list;
        engine := engine p |}).

(** What a registered listener does when its event fires. *)
Definition run_listener (NODE_ENV : option string) (b : PrismaClient)
    (l : Listener) : M unit :=
  match l with
  | SignalListener signal => void (gracefulExit b signal)
  | BeforeExitListener => beforeExit NODE_ENV b
  end.

(** The evaluation of the module, top to bottom; it yields the client that
    [prisma] extends. *)
Definition module_body (NODE_ENV : option string) : M PrismaClient :=
  b <- base NODE_ENV ;;
  process_on "SIGINT" (SignalListener "SIGINT") ;;
  process_on "SIGTERM" (SignalListener "SIGTERM") ;;
  client_on b "beforeExit" BeforeExitListener ;;
  ret b.

(** [n] evaluations of the module in one process (one import and [n - 1]
    reloads), with the clients they yield. *)
Fixpoint reload (NODE_ENV : option string) (n : nat) (p : Process)
  : list PrismaClient * Process :=
  match n with
  | O => ([], p)
  | S n' =>
      match module_body NODE_ENV p with
      | (Normal b, p') =>
          let (bs, p'') := reload NODE_ENV n' p' in (b :: bs, p'')
      | (Thrown _, p') => ([], p')
      end
  end.

(** The two processes agree on everything but the console. *)
Definition same_outside_console (p q : Process) : Prop :=
  clock p = clock q /\
  globalSlot p = globalSlot q /\
  constructed p = constructed q /\
  journal p = journal q /\
  processListeners p = processListeners q /\
  clientListeners p = clientListeners q /\
  engine p = engine q.

(** The lines of the shutdown paths. *)
Definition intentLine (signal : string) : LogLine :=
  {| stream := Stdout;
     text := "[prisma] Received " ++ signal ++ ". Closing DB connections...";
     extra := [] |}.

Definition disconnectErrorLine (err : JsValue) : LogLine :=
  {| stream := Stderr;
     text := "[prisma] Error during disconnect:";
     extra := [err] |}.

Definition beforeExitLine : LogLine :=
  {| stream := Stdout;
     text := "[prisma] beforeExit ⇒ disconnect";
     extra := [] |}.

End Wrapper.

Arguments clock {Engine} _.
Arguments console {Engine} _.
Arguments globalSlot {Engine} _.
Arguments constructed {Engine} _.
Arguments journal {Engine} _.
Arguments processListeners {Engine} _.
Arguments clientListeners {Engine} _.
Arguments engine {Engine} _.
Arguments Extern Engine A : clear implicits.
Arguments M Engine A : clear implicits.
Arguments write_line {Engine} l _.
Arguments console_log {Engine} t _.
Arguments console_error {Engine} t more _.
Arguments await_call {Engine A} c behaviour _.
Arguments prisma_disconnect {Engine} disconnect b _.
Arguments allOperations {Engine} NODE_ENV model operation args query _.
Arguments unwrapped {Engine} args query _.
Arguments same_outside_console {Engine} p q.
Arguments createBaseClient {Engine} NODE_ENV _.
Arguments module_body {Engine} NODE_ENV _.
Arguments reload {Engine} NODE_ENV n p.
Arguments gracefulExit {Engine} disconnect b signal _.
Arguments beforeExit {Engine} disconnect NODE_ENV b _.
Arguments run_listener {Engine} disconnect NODE_ENV b l _.

(** ** Concrete processes and engines *)

(** A process that has just started, with an engine whose state is whether
    the client is connected. *)
Definition idle : Process bool :=
  {| clock := 1000; console := []; globalSlot := None; constructed := [];
     journal := []; processListeners := []; clientListeners := [];
     engine := true |}.

Definition development : option string := Some "development".
Definition production : option string := Some "production".

(** A [findMany] that resolves after 12 ms with three rows. *)
Definition three_rows : JsValue -> Extern bool JsValue :=
  fun _ eng t =>
    (Normal (JsArray [JsObject [("id", JsNumber 1)];
                      JsObject [("id", JsNumber 2)];
                      JsObject [("id", JsNumber 3)]]), eng, (t + 12)%Z).

(** A [create] that rejects after 7 ms. *)
Definition unique_violation : JsValue -> Extern bool JsValue :=
  fun _ eng t => (Thrown (JsString "P2002"), eng, (t + 7)%Z).

(** A [$disconnect] that succeeds after 5 ms. *)
Definition closes : PrismaClient -> Extern bool unit :=
  fun _ _ t => (Normal tt, false, (t + 5)%Z).

(** A [$disconnect] that rejects after 3 ms. *)
Definition refuses : PrismaClient -> Extern bool unit :=
  fun _ eng t => (Thrown (JsString "ECONNRESET"), eng, (t + 3)%Z).

(** A [$disconnect] that succeeds on a connected client and rejects on one
    that is already disconnected. *)
Definition closes_once : PrismaClient -> Extern bool unit :=
  fun _ connected t =>
    if connected then (Normal tt, false, (t + 5)%Z)
    else (Thrown (JsString "already disconnected"), false, t).

Definition client0 : PrismaClient :=
  {| clientId := 0; clientOptions := prismaOptions production |}.

(** ** Properties *)

Section Properties.

Context {Engine : Type}.

(** The behaviour of [$disconnect], whatever it is. *)
Variable disconnect : PrismaClient -> Extern Engine unit.


Lemma append_assoc (a b c : string) : (a ++ b) ++ c = a ++ b ++ c.
Proof.
  induction a as [|ch a IH]; simpl; [reflexivity | now rewrite IH].
Qed.

Lemma successLine_mentions (model operation : string) (ms : Z) (size : string) :
  mentions model (successLine model operation ms size) /\
  mentions operation (successLine model operation ms size) /\
  mentions (Number_toString ms) (successLine model operation ms size).
Proof.
  unfold successLine, mentions. repeat split.
  - now exists "[prisma] ", ("." ++ operation ++ " (" ++ Number_toString ms
                              ++ " ms)" ++ size).
  - exists ("[prisma] " ++ model ++ "."),
           (" (" ++ Number_toString ms ++ " ms)" ++ size).
    now rewrite !append_assoc.
  - exists ("[prisma] " ++ model ++ "." ++ operation ++ " ("),
           (" ms)" ++ size).
    now rewrite !append_assoc.
Qed.

Lemma failureLine_mentions (model operation : string) (ms : Z) :
  mentions model (failureLine model operation ms) /\
  mentions operation (failureLine model operation ms) /\
  mentions (Number_toString ms) (failureLine model operation ms).
Proof.
  unfold failureLine, mentions. repeat split.
  - now exists "[prisma] ", ("." ++ operation ++ " FAILED after "
                              ++ Number_toString ms ++ " ms").
  - exists ("[prisma] " ++ model ++ "."),
           (" FAILED after " ++ Number_toString ms ++ " ms").
    now rewrite !append_assoc.
  - exists ("[prisma] " ++ model ++ "." ++ operation ++ " FAILED after "),
           " ms".
    now rewrite !append_assoc.
Qed.

(** The three cases of the size hint. *)
Lemma sizeHint_array (elems : list JsValue) :
  sizeHint (JsArray elems)
  = " items=" ++ Number_toString (Z.of_nat (List.length elems)).
Proof. reflexivity. Qed.

Lemma sizeHint_object (props : list (string * JsValue)) :
  sizeHint (JsObject props) = " item=1".
Proof. reflexivity. Qed.

Lemma sizeHint_other (v : JsValue) :
  (forall elems, v <> JsArray elems) ->
  (forall props, v <> JsObject props) ->
  sizeHint v = "".
Proof.
  intros Harr Hobj.
  destruct v as [| |b|n| |n|s|d|f|props|elems]; try reflexivity.
  - now destruct b.
  - now destruct n.
  - now destruct n.
  - now destruct s.
  - now destruct (Hobj props).
  - now destruct (Harr elems).
Qed.

(** What the hook does, by the completion of the underlying call. *)
Lemma allOperations_eq (NODE_ENV : option string) (model operation : string)
    (args : JsValue) (query : JsValue -> Extern Engine JsValue) (p : Process Engine) :
  allOperations NODE_ENV model operation args query p =
  match unwrapped args query p with
  | (Normal result, q) =>
      if isProd NODE_ENV then (Normal result, q)
      else (Normal result,
            snd (console_log
                   (successLine model operation (clock q - clock p)
                      (sizeHint result)) q))
  | (Thrown e, q) =>
      (Thrown e,
       snd (console_error
              (failureLine model operation (clock q - clock p)) [] q))
  end.
Proof.
  unfold allOperations, unwrapped, try_catch, bind, Date_now, await_call.
  destruct (query args (engine p) (clock p)) as [[[result | e] eng] t]; simpl.
  - now destruct (isProd NODE_ENV).
  - reflexivity.
Qed.

Lemma unwrapped_console (args : JsValue) (query : JsValue -> Extern Engine JsValue)
    (p : Process Engine) :
  console (snd (unwrapped args query p)) = console p.
Proof.
  unfold unwrapped, await_call.
  now destruct (query args (engine p) (clock p)) as [[r eng] t].
Qed.

Lemma unwrapped_journal (args : JsValue) (query : JsValue -> Extern Engine JsValue)
    (p : Process Engine) :
  journal (snd (unwrapped args query p)) = (journal p ++ [CallQuery args])%list.
Proof.
  unfold unwrapped, await_call.
  now destruct (query args (engine p) (clock p)) as [[r eng] t].
Qed.

Lemma same_outside_console_refl (p : Process Engine) : same_outside_console p p.
Proof. now repeat split. Qed.

Lemma write_line_outside (l : LogLine) (p : Process Engine) :
  same_outside_console (snd (write_line l p)) p.
Proof. now repeat split. Qed.

(** The hook leaves the completion of the call alone, and the process too
    but for the console. *)
Lemma allOperations_frame (NODE_ENV : option string) (model operation : string)
    (args : JsValue) (query : JsValue -> Extern Engine JsValue) (p : Process Engine) :
  fst (allOperations NODE_ENV model operation args query p)
  = fst (unwrapped args query p) /\
  same_outside_console
    (snd (allOperations NODE_ENV model operation args query p))
    (snd (unwrapped args query p)).
Proof.
  rewrite allOperations_eq.
  destruct (unwrapped args query p) as [[result | e] q]; simpl.
  - destruct (isProd NODE_ENV); simpl; split; try reflexivity.
    + apply same_outside_console_refl.
    + apply write_line_outside.
  - split; [reflexivity | apply write_line_outside].
Qed.

(** C1: the wrapped operation completes exactly as the unwrapped one does,
    for every mode, model, operation, arguments and behaviour of the
    underlying call: normally with the same value, or by throwing the same
    value; and the hook changes nothing in the process but the console. *)
Theorem hook_is_observational (NODE_ENV : option string)
    (model operation : string) (args : JsValue)
    (query : JsValue -> Extern Engine JsValue) (p : Process Engine) :
  fst (allOperations NODE_ENV model operation args query p)
  = fst (unwrapped args query p) /\
  same_outside_console
    (snd (allOperations NODE_ENV model operation args query p))
    (snd (unwrapped args query p)).
Proof. apply allOperations_frame. Qed.

(** C2: outside production, a call that succeeds makes the hook write
    exactly one line, on the standard output: it names the model and the
    operation and gives the elapsed milliseconds, and it ends with the size
    hint, which is the number of elements for an array, the single-item hint
    for an object, and empty for any other result, [null] and [undefined]
    among them. *)
Theorem success_line_outside_production (NODE_ENV : option string)
    (model operation : string) (args : JsValue)
    (query : JsValue -> Extern Engine JsValue) (p q : Process Engine) (result : JsValue) :
  isProd NODE_ENV = false ->
  unwrapped args query p = (Normal result, q) ->
  let ms := (clock q - clock p)%Z in
  let line := {| stream := Stdout;
                 text := successLine model operation ms (sizeHint result);
                 extra := [] |} in
  fst (allOperations NODE_ENV model operation args query p) = Normal result /\
  console (snd (allOperations NODE_ENV model operation args query p))
  = (console p ++ [line])%list /\
  text line = "[prisma] " ++ model ++ "." ++ operation ++ " ("
                ++ Number_toString ms ++ " ms)" ++ sizeHint result /\
  mentions model (text line) /\
  mentions operation (text line) /\
  mentions (Number_toString ms) (text line) /\
  (forall elems, result = JsArray elems ->
     sizeHint result
     = " items=" ++ Number_toString (Z.of_nat (List.length elems))) /\
  (forall props, result = JsObject props -> sizeHint result = " item=1") /\
  ((forall elems, result <> JsArray elems) ->
   (forall props, result <> JsObject props) ->
   sizeHint result = "") /\
  sizeHint JsNull = "" /\ sizeHint JsUndefined = "".
Proof.
  intros Hdev Hq ms line.
  pose proof (unwrapped_console args query p) as Hc.
  rewrite allOperations_eq, Hq, Hdev. rewrite Hq in Hc. simpl in Hc |- *.
  rewrite Hc.
  destruct (successLine_mentions model operation ms (sizeHint result))
    as (Hm & Ho & Ht).
  repeat split; try assumption.
  - intros elems ->. apply sizeHint_array.
  - intros props ->. apply sizeHint_object.
  - apply sizeHint_other.
Qed.

(** C3: in either mode, a call that fails makes the hook write exactly one
    line, on the standard error, naming the model and the operation and
    giving the elapsed milliseconds, and then throw the value the call
    threw; the call was made once and the engine is left as the call left
    it. *)
Theorem failure_line_and_rethrow (NODE_ENV : option string)
    (model operation : string) (args : JsValue)
    (query : JsValue -> Extern Engine JsValue) (p q : Process Engine) (e : JsValue) :
  unwrapped args query p = (Thrown e, q) ->
  let ms := (clock q - clock p)%Z in
  let line := {| stream := Stderr;
                 text := failureLine model operation ms;
                 extra := [] |} in
  fst (allOperations NODE_ENV model operation args query p) = Thrown e /\
  console (snd (allOperations NODE_ENV model operation args query p))
  = (console p ++ [line])%list /\
  text line = "[prisma] " ++ model ++ "." ++ operation ++ " FAILED after "
                ++ Number_toString ms ++ " ms" /\
  mentions model (text line) /\
  mentions operation (text line) /\
  mentions (Number_toString ms) (text line) /\
  journal (snd (allOperations NODE_ENV model operation args query p))
  = (journal p ++ [CallQuery args])%list /\
  engine (snd (allOperations NODE_ENV model operation args query p))
  = engine q.
Proof.
  intros Hq ms line.
  pose proof (unwrapped_console args query p) as Hc.
  pose proof (unwrapped_journal args query p) as Hj.
  rewrite allOperations_eq, Hq. rewrite Hq in Hc, Hj. simpl in Hc, Hj |- *.
  rewrite Hc, Hj.
  destruct (failureLine_mentions model operation ms) as (Hm & Ho & Ht).
  repeat split; assumption.
Qed.

(** C9: in production, a call that succeeds goes through the hook without a
    line being written: the hook leaves the process exactly as the call left
    it and the console as it found it; and the value returned is the value
    of the call in every mode. *)
Theorem production_success_is_silent (NODE_ENV : option string)
    (model operation : string) (args : JsValue)
    (query : JsValue -> Extern Engine JsValue) (p q : Process Engine) (result : JsValue) :
  isProd NODE_ENV = true ->
  unwrapped args query p = (Normal result, q) ->
  allOperations NODE_ENV model operation args query p = (Normal result, q) /\
  console (snd (allOperations NODE_ENV model operation args query p))
  = console p /\
  (forall other : option string,
     fst (allOperations other model operation args query p) = Normal result).
Proof.
  intros Hprod Hq.
  pose proof (unwrapped_console args query p) as Hc.
  rewrite Hq in Hc. simpl in Hc.
  rewrite allOperations_eq, Hq, Hprod. simpl.
  repeat split; try assumption.
  intros other.
  destruct (allOperations_frame other model operation args query p) as [-> _].
  now rewrite Hq.
Qed.

(** C10: two runs of the hook that differ in the mode only complete alike,
    with the same value returned or the same value thrown, and leave
    processes that differ in the console at most. *)
Theorem flag_does_not_interfere (env1 env2 : option string)
    (model operation : string) (args : JsValue)
    (query : JsValue -> Extern Engine JsValue) (p : Process Engine) :
  fst (allOperations env1 model operation args query p)
  = fst (allOperations env2 model operation args query p) /\
  same_outside_console
    (snd (allOperations env1 model operation args query p))
    (snd (allOperations env2 model operation args query p)).
Proof.
  destruct (allOperations_frame env1 model operation args query p)
    as [R1 (A1 & B1 & C1 & D1 & E1 & F1 & G1)].
  destruct (allOperations_frame env2 model operation args query p)
    as [R2 (A2 & B2 & C2 & D2 & E2 & F2 & G2)].
  split; [congruence |].
  unfold same_outside_console. repeat split; congruence.
Qed.

(** *** Shutdown *)

(** What [gracefulExit] does, by the completion of [$disconnect]. *)
Lemma gracefulExit_eq (b : PrismaClient) (signal : string) (p : Process Engine) :
  gracefulExit disconnect b signal p =
  match disconnect b (engine p) (clock p) with
  | (r, eng, t) =>
      (Normal tt,
       {| clock := t;
          console :=
            (console p ++ intentLine signal ::
               match r with
               | Normal _ => []
               | Thrown err => [disconnectErrorLine err]
               end)%list;
          globalSlot := globalSlot p;
          constructed := constructed p;
          journal := (journal p ++ [CallDisconnect (clientId b)])%list;
          processListeners := processListeners p;
          clientListeners := clientListeners p;
          engine := eng |})
  end.
Proof.
  unfold gracefulExit, try_catch, bind, prisma_disconnect, await_call,
    console_log, console_error, write_line, intentLine, disconnectErrorLine.
  simpl.
  destruct (disconnect b (engine p) (clock p)) as [[[[] | err] eng] t]; simpl;
    rewrite <- ?app_assoc; reflexivity.
Qed.

(** C4: [gracefulExit] writes its intent line, calls [$disconnect] once and
    waits for it (the process is left at the time and in the engine state the
    call settles with), and completes normally whatever the call does: a
    failure is written after the intent line, with the thrown value, and is
    not thrown again.  A second run, from the process the first one left,
    completes normally too and has made one more call to [$disconnect]. *)
Theorem gracefulExit_never_throws (b : PrismaClient) (signal : string)
    (p : Process Engine) :
  let outcome := disconnect b (engine p) (clock p) in
  let p' := snd (gracefulExit disconnect b signal p) in
  fst (gracefulExit disconnect b signal p) = Normal tt /\
  journal p' = (journal p ++ [CallDisconnect (clientId b)])%list /\
  console p'
  = (console p ++ intentLine signal ::
       match fst (fst outcome) with
       | Normal _ => []
       | Thrown err => [disconnectErrorLine err]
       end)%list /\
  engine p' = snd (fst outcome) /\
  clock p' = snd outcome /\
  (forall again : string,
     fst (gracefulExit disconnect b again p') = Normal tt /\
     journal (snd (gracefulExit disconnect b again p'))
     = (journal p ++ [CallDisconnect (clientId b);
                      CallDisconnect (clientId b)])%list).
Proof.
  intros outcome p'. subst outcome p'.
  rewrite gracefulExit_eq.
  destruct (disconnect b (engine p) (clock p)) as [[r eng] t]; simpl.
  repeat split.
  - rewrite gracefulExit_eq; simpl.
    now destruct (disconnect b eng t) as [[r2 eng2] t2].
  - rewrite gracefulExit_eq; simpl.
    destruct (disconnect b eng t) as [[r2 eng2] t2]; simpl.
    now rewrite <- app_assoc.
Qed.

(** What the evaluation of the module does. *)
Lemma module_body_eq (NODE_ENV : option string) (p : Process Engine) :
  module_body NODE_ENV p =
  let b := match globalSlot p with
           | Some c => c
           | None => {| clientId := List.length (constructed p);
                        clientOptions := prismaOptions NODE_ENV |}
           end in
  (Normal b,
   {| clock := clock p;
      console := console p;
      globalSlot := if isProd NODE_ENV then globalSlot p else Some b;
      constructed := match globalSlot p with
                     | Some _ => constructed p
                     | None => (constructed p ++ [b])%list
                     end;
      journal := journal p;
      processListeners :=
        (processListeners p ++ [("SIGINT", SignalListener "SIGINT");
                                ("SIGTERM", SignalListener "SIGTERM")])%list;
      clientListeners :=
        (clientListeners p ++ [(clientId b, "beforeExit", BeforeExitListener)])%list;
      engine := engine p |}).
Proof.
  unfold module_body, base, bind, get_global, createBaseClient,
    new_PrismaClient, set_global, process_on, client_on, ret.
  destruct p as [t con slot made jour pl cl eng]; simpl.
  destruct slot as [c |]; destruct (isProd NODE_ENV); simpl;
    rewrite <- ?app_assoc; reflexivity.
Qed.


(** *** Construction and the singleton *)

(** Once the slot is filled, every evaluation outside production yields the
    stored client and constructs nothing. *)
Lemma reload_filled (NODE_ENV : option string) (n : nat) (p : Process Engine)
    (b : PrismaClient) :
  isProd NODE_ENV = false ->
  globalSlot p = Some b ->
  fst (reload NODE_ENV n p) = repeat b n /\
  globalSlot (snd (reload NODE_ENV n p)) = Some b /\
  constructed (snd (reload NODE_ENV n p)) = constructed p.
Proof.
  intros Hdev. revert p.
  induction n as [|n IH]; intros p Hslot; simpl.
  - now repeat split.
  - rewrite module_body_eq; simpl. rewrite Hslot, Hdev.
    match goal with
    | |- context [reload NODE_ENV n ?q] =>
        destruct (IH q eq_refl) as (Hb & Hs & Hc);
        destruct (reload NODE_ENV n q) as [bs q']
    end.
    simpl in *. now subst bs.
Qed.

(** C6: outside production, any number of evaluations of the module in one
    process all complete and yield one and the same base client, which the
    slot holds from the first evaluation on: the client already in the slot
    when there is one, with nothing constructed, and otherwise the only
    client that gets constructed.  Two evaluations in a row are the case
    of the last conjunct. *)
Theorem singleton_outside_production (NODE_ENV : option string) (n : nat)
    (p : Process Engine) :
  isProd NODE_ENV = false ->
  exists b : PrismaClient,
    fst (reload NODE_ENV (S n) p) = repeat b (S n) /\
    globalSlot (snd (reload NODE_ENV (S n) p)) = Some b /\
    match globalSlot p with
    | Some c =>
        b = c /\ constructed (snd (reload NODE_ENV (S n) p)) = constructed p
    | None =>
        constructed (snd (reload NODE_ENV (S n) p))
        = (constructed p ++ [b])%list
    end /\
    fst (module_body NODE_ENV p) = Normal b /\
    globalSlot (snd (module_body NODE_ENV p)) = Some b /\
    fst (module_body NODE_ENV (snd (module_body NODE_ENV p))) = Normal b.
Proof.
  intros Hdev.
  pose proof (module_body_eq NODE_ENV p) as E. simpl in E.
  rewrite Hdev in E.
  set (b := match globalSlot p with
            | Some c => c
            | None => {| clientId := List.length (constructed p);
                         clientOptions := prismaOptions NODE_ENV |}
            end) in *.
  exists b. simpl reload. rewrite E.
  match goal with
  | |- context [reload NODE_ENV n ?q] =>
      destruct (reload_filled NODE_ENV n q b Hdev eq_refl) as (Hb & Hs & Hc);
      destruct (reload NODE_ENV n q) as [bs q']
  end.
  simpl in *. subst bs. repeat split; try assumption.
  - rewrite Hc. subst b. now destruct (globalSlot p).
  - now rewrite module_body_eq.
Qed.

(** C7: the options of the base client are a function of the production
    flag, which holds exactly when [NODE_ENV] is ["production"]: the levels
    warn and error with the minimal error format in production, the levels
    info, warn and error with the pretty error format otherwise; and the
    client is constructed with these options. *)
Theorem options_follow_flag (NODE_ENV : option string) (p : Process Engine) :
  (isProd NODE_ENV = true <-> NODE_ENV = Some "production") /\
  prismaOptions NODE_ENV
  = (if isProd NODE_ENV
     then {| log := [LogWarn; LogError]; errorFormat := FormatMinimal |}
     else {| log := [LogInfo; LogWarn; LogError];
             errorFormat := FormatPretty |}) /\
  exists c : PrismaClient,
    fst (createBaseClient NODE_ENV p) = Normal c /\
    clientOptions c = prismaOptions NODE_ENV /\
    constructed (snd (createBaseClient NODE_ENV p))
    = (constructed p ++ [c])%list.
Proof.
  split; [| split].
  - destruct NODE_ENV as [v |]; simpl.
    + rewrite String.eqb_eq. split; [now intros -> | now intros [= ->]].
    + split; discriminate.
  - unfold prismaOptions, prismaLog. now destruct (isProd NODE_ENV).
  - unfold createBaseClient, new_PrismaClient. simpl.
    eexists; repeat split.
Qed.

(** C8: in production, the evaluation of the module leaves the slot as it
    found it, and still reads it: a client stored there is the base client
    and nothing is constructed; with an empty slot one client is
    constructed, with the options of the mode, and the slot stays empty. *)
Theorem production_reads_but_never_writes_slot (NODE_ENV : option string)
    (p : Process Engine) :
  isProd NODE_ENV = true ->
  globalSlot (snd (module_body NODE_ENV p)) = globalSlot p /\
  match globalSlot p with
  | Some c =>
      fst (module_body NODE_ENV p) = Normal c /\
      constructed (snd (module_body NODE_ENV p)) = constructed p
  | None =>
      let fresh := {| clientId := List.length (constructed p);
                      clientOptions := prismaOptions NODE_ENV |} in
      fst (module_body NODE_ENV p) = Normal fresh /\
      constructed (snd (module_body NODE_ENV p))
      = (constructed p ++ [fresh])%list
  end.
Proof.
  intros Hprod. rewrite module_body_eq; simpl. rewrite Hprod.
  split; [reflexivity |].
  now destruct (globalSlot p).
Qed.

(** *** Further properties of the query extension *)

Lemma to_int_not_nil (n : Z) :
  Z.to_int n <> Decimal.Pos Decimal.Nil /\
  Z.to_int n <> Decimal.Neg Decimal.Nil.
Proof.
  destruct n as [| q | q]; simpl; split; try discriminate;
    intros [= H]; now apply DecimalPos.Unsigned.to_uint_nonnil in H.
Qed.

(** The text of a number reads back as the number. *)
Lemma Number_toString_inj (a b : Z) :
  Number_toString a = Number_toString b -> a = b.
Proof.
  unfold Number_toString. intros H.
  apply (f_equal NilZero.int_of_string) in H.
  destruct (to_int_not_nil a) as [Ha1 Ha2].
  destruct (to_int_not_nil b) as [Hb1 Hb2].
  rewrite !NilZero.isi in H by assumption.
  injection H as H. now apply DecimalZ.to_int_inj.
Qed.

(** X1: the size hint tells the three kinds of result apart: it is empty exactly
    for the results that are neither an array nor an object, it is the
    single-item hint exactly for the objects, and it is an items hint exactly
    for the arrays. *)
Theorem sizeHint_classifies (v : JsValue) :
  (sizeHint v = "" <->
   (forall elems, v <> JsArray elems) /\ (forall props, v <> JsObject props)) /\
  (sizeHint v = " item=1" <-> exists props, v = JsObject props) /\
  ((exists n : Z, sizeHint v = " items=" ++ Number_toString n) <->
   exists elems, v = JsArray elems).
Proof.
  assert (Hprim : (forall elems, v <> JsArray elems) ->
                  (forall props, v <> JsObject props) ->
                  sizeHint v <> " item=1" /\
                  forall n, sizeHint v <> " items=" ++ Number_toString n).
  { intros A O. rewrite (sizeHint_other v A O). split; [| intros n]; discriminate. }
  split; [| split]; split.
  - intros H; split; intros x ->; simpl in H; discriminate H.
  - intros [A O]. now apply sizeHint_other.
  - intros H.
    destruct v as [| |b|n| |n|s|d|f|props|elems];
      try (now exists props);
      try (exfalso; simpl in H; discriminate H);
      exfalso; apply Hprim; try assumption; intros x; discriminate.
  - intros [props ->]. reflexivity.
  - intros [m H].
    destruct v as [| |b|n| |n|s|d|f|props|elems];
      try (now exists elems);
      try (exfalso; simpl in H; discriminate H);
      exfalso; (eapply Hprim; [| | exact H]); intros x; discriminate.
  - intros [elems ->]. now exists (Array_length elems).
Qed.

(** X2: the items hint depends on the number of elements of the array and on
    nothing else, and gives that number back: two arrays get the same hint
    exactly when they have the same length, whatever they hold. *)
Theorem sizeHint_array_length (xs ys : list JsValue) :
  sizeHint (JsArray xs) = sizeHint (JsArray ys) <->
  List.length xs = List.length ys.
Proof.
  rewrite !sizeHint_array. split.
  - intros H. simpl in H. injection H as H.
    apply Number_toString_inj in H. now apply Nat2Z.inj.
  - now intros ->.
Qed.

(** X3: in every mode and for every outcome the hook makes exactly one call,
    with the arguments it was given, at the time and engine state it was
    entered with, and it ends at the time and engine state that call settles
    with: it does not retry, and it adds no wait.  The singleton slot, the
    clients and the listeners are left alone. *)
Theorem hook_delegates_once (NODE_ENV : option string)
    (model operation : string) (args : JsValue)
    (query : JsValue -> Extern Engine JsValue) (p : Process Engine) :
  let settled := query args (engine p) (clock p) in
  let p' := snd (allOperations NODE_ENV model operation args query p) in
  fst (allOperations NODE_ENV model operation args query p)
  = fst (fst settled) /\
  journal p' = (journal p ++ [CallQuery args])%list /\
  engine p' = snd (fst settled) /\
  clock p' = snd settled /\
  globalSlot p' = globalSlot p /\
  constructed p' = constructed p /\
  processListeners p' = processListeners p /\
  clientListeners p' = clientListeners p.
Proof.
  intros settled p'. subst settled p'.
  destruct (allOperations_frame NODE_ENV model operation args query p)
    as [R (A & B & C & D & E & F & G)].
  rewrite R, A, B, C, D, E, F, G.
  unfold unwrapped, await_call.
  now destruct (query args (engine p) (clock p)) as [[r eng] t].
Qed.

(** X4: when the call fails, the mode plays no part at all: the hook leaves the
    same process, console included, and throws the same value under any two
    values of [NODE_ENV]. *)
Theorem failure_is_mode_independent (env1 env2 : option string)
    (model operation : string) (args : JsValue)
    (query : JsValue -> Extern Engine JsValue) (p q : Process Engine)
    (e : JsValue) :
  unwrapped args query p = (Thrown e, q) ->
  allOperations env1 model operation args query p
  = allOperations env2 model operation args query p.
Proof.
  intros Hq. now rewrite !allOperations_eq, Hq.
Qed.

(** *** Further properties of the shutdown paths *)

(** X5: the [beforeExit] listener has no handler around [$disconnect]: when
    the call fails, in either mode, the listener completes by throwing the
    value the call threw, after that one call, and nothing is written to the
    standard error; the console holds the listener's own line outside
    production and nothing new in production. *)
Theorem beforeExit_failure_propagates (NODE_ENV : option string)
    (b : PrismaClient) (p : Process Engine) (e : JsValue) (eng : Engine)
    (t : Z) :
  disconnect b (engine p) (clock p) = (Thrown e, eng, t) ->
  let p' := snd (run_listener disconnect NODE_ENV b BeforeExitListener p) in
  fst (run_listener disconnect NODE_ENV b BeforeExitListener p) = Thrown e /\
  journal p' = (journal p ++ [CallDisconnect (clientId b)])%list /\
  console p'
  = (console p ++ if isProd NODE_ENV then [] else [beforeExitLine])%list /\
  engine p' = eng /\
  clock p' = t.
Proof.
  intros Hd p'. subst p'.
  unfold run_listener, beforeExit, bind, prisma_disconnect, await_call,
    console_log, write_line, ret.
  destruct (isProd NODE_ENV); simpl; rewrite Hd; simpl;
    rewrite ?app_nil_r; repeat split; reflexivity.
Qed.

(** X6: [gracefulExit] closes the connection and nothing else: the singleton
    slot, the clients and the listeners are as before.  So outside
    production an evaluation of the module that follows a shutdown yields
    the very client that was disconnected, and constructs none. *)
Theorem shutdown_keeps_singleton (NODE_ENV : option string) (signal : string)
    (p : Process Engine) :
  isProd NODE_ENV = false ->
  exists b : PrismaClient,
    fst (module_body NODE_ENV p) = Normal b /\
    let p1 := snd (module_body NODE_ENV p) in
    let p2 := snd (gracefulExit disconnect b signal p1) in
    globalSlot p2 = Some b /\
    constructed p2 = constructed p1 /\
    processListeners p2 = processListeners p1 /\
    clientListeners p2 = clientListeners p1 /\
    fst (module_body NODE_ENV p2) = Normal b /\
    constructed (snd (module_body NODE_ENV p2)) = constructed p1.
Proof.
  intros Hdev. rewrite module_body_eq; simpl. rewrite Hdev.
  eexists; split; [reflexivity |].
  rewrite gracefulExit_eq; simpl.
  match goal with
  | |- context [disconnect ?c ?g ?u] =>
      destruct (disconnect c g u) as [[r eng] t]
  end.
  simpl. rewrite module_body_eq; simpl. now repeat split.
Qed.

(** *** Further properties of the evaluation of the module *)

(** X8: a client the module constructs never has the query log level, in any
    mode: it has the levels warn and error, and the level info exactly
    outside production. *)
Theorem query_level_never_enabled (NODE_ENV : option string)
    (p : Process Engine) :
  globalSlot p = None ->
  exists b : PrismaClient,
    fst (module_body NODE_ENV p) = Normal b /\
    ~ In LogQuery (log (clientOptions b)) /\
    In LogWarn (log (clientOptions b)) /\
    In LogError (log (clientOptions b)) /\
    (In LogInfo (log (clientOptions b)) <-> isProd NODE_ENV = false).
Proof.
  intros Hslot. rewrite module_body_eq; simpl. rewrite Hslot.
  eexists; split; [reflexivity |]. simpl. unfold prismaLog.
  destruct (isProd NODE_ENV); simpl; intuition discriminate.
Qed.

(** X10: in production the slot is never filled, so with an empty slot there is
    no reuse: [n] evaluations construct [n] clients, one each, with
    consecutive identities, hence pairwise distinct, and leave the slot
    empty. *)
Theorem production_never_reuses (NODE_ENV : option string) (n : nat)
    (p : Process Engine) :
  isProd NODE_ENV = true ->
  globalSlot p = None ->
  fst (reload NODE_ENV n p)
  = map (fun i => {| clientId := i; clientOptions := prismaOptions NODE_ENV |})
      (seq (List.length (constructed p)) n) /\
  constructed (snd (reload NODE_ENV n p))
  = (constructed p ++ fst (reload NODE_ENV n p))%list /\
  globalSlot (snd (reload NODE_ENV n p)) = None /\
  NoDup (fst (reload NODE_ENV n p)).
Proof.
  intros Hprod.
  assert (Hmain : forall m (q : Process Engine),
             globalSlot q = None ->
             fst (reload NODE_ENV m q)
             = map (fun i => {| clientId := i;
                                clientOptions := prismaOptions NODE_ENV |})
                 (seq (List.length (constructed q)) m) /\
             constructed (snd (reload NODE_ENV m q))
             = (constructed q ++ fst (reload NODE_ENV m q))%list /\
             globalSlot (snd (reload NODE_ENV m q)) = None).
  { induction m as [|m IH]; intros q Hslot.
    - simpl. now rewrite app_nil_r.
    - simpl reload. rewrite module_body_eq. cbv beta iota zeta.
      rewrite Hslot, Hprod.
      match goal with
      | |- context [reload NODE_ENV m ?q1] =>
          destruct (IH q1 eq_refl) as (Hb & Hc & Hs);
          destruct (reload NODE_ENV m q1) as [bs q']
      end.
      simpl in *. rewrite Hc, Hs, Hb, <- app_assoc.
      rewrite length_app, Nat.add_1_r. now repeat split. }
  intros Hslot. destruct (Hmain n p Hslot) as (Hb & Hc & Hs).
  repeat split; try assumption.
  rewrite Hb. apply NoDup_map_NoDup_ForallPairs; [| apply seq_NoDup].
  now intros i j _ _ [= ->].
Qed.

End Properties.

(** ** Concrete runs *)

Example sizeHint_three_rows :
  sizeHint (JsArray [JsNull; JsNull; JsNull]) = " items=3".
Proof. reflexivity. Qed.

Example successLine_findMany :
  successLine "User" "findMany" 12 " items=3"
  = "[prisma] User.findMany (12 ms) items=3".
Proof. reflexivity. Qed.

Example gracefulExit_twice :
  let first := gracefulExit closes_once client0 "SIGINT" idle in
  let second := gracefulExit closes_once client0 "SIGTERM" (snd first) in
  fst first = Normal tt /\
  fst second = Normal tt /\
  console (snd second)
  = [intentLine "SIGINT"; intentLine "SIGTERM";
     disconnectErrorLine (JsString "already disconnected")] /\
  journal (snd second) = [CallDisconnect 0; CallDisconnect 0].
Proof. repeat split. Qed.

Lemma success_line_outside_production_witness :
  isProd development = false /\
  console (snd (allOperations development "User" "findMany" JsUndefined
                  three_rows idle))
  = [{| stream := Stdout;
        text := "[prisma] User.findMany (12 ms) items=3";
        extra := [] |}].
Proof.
  split; [reflexivity |].
  destruct (success_line_outside_production development
              "User" "findMany" JsUndefined three_rows idle
              (snd (unwrapped JsUndefined three_rows idle))
              (JsArray [JsObject [("id", JsNumber 1)];
                        JsObject [("id", JsNumber 2)];
                        JsObject [("id", JsNumber 3)]])
              eq_refl eq_refl) as (_ & H & _).
  exact H.
Defined.

Lemma failure_line_and_rethrow_witness :
  fst (allOperations production "User" "create" JsUndefined
         unique_violation idle) = Thrown (JsString "P2002") /\
  console (snd (allOperations production "User" "create" JsUndefined
                  unique_violation idle))
  = [{| stream := Stderr;
        text := "[prisma] User.create FAILED after 7 ms";
        extra := [] |}].
Proof.
  destruct (failure_line_and_rethrow production
              "User" "create" JsUndefined unique_violation idle
              (snd (unwrapped JsUndefined unique_violation idle))
              (JsString "P2002") eq_refl) as (H1 & H2 & _).
  split; [exact H1 | exact H2].
Defined.

Lemma production_success_is_silent_witness :
  isProd production = true /\
  console (snd (allOperations production "User" "findMany" JsUndefined
                  three_rows idle)) = [].
Proof.
  split; [reflexivity |].
  destruct (production_success_is_silent production
              "User" "findMany" JsUndefined three_rows idle
              (snd (unwrapped JsUndefined three_rows idle))
              (JsArray [JsObject [("id", JsNumber 1)];
                        JsObject [("id", JsNumber 2)];
                        JsObject [("id", JsNumber 3)]])
              eq_refl eq_refl) as (_ & H & _).
  exact H.
Defined.



Lemma singleton_outside_production_witness :
  isProd development = false /\
  fst (reload development 2 idle)
  = [ {| clientId := 0; clientOptions := prismaOptions development |};
      {| clientId := 0; clientOptions := prismaOptions development |} ] /\
  List.length (constructed (snd (reload development 2 idle))) = 1%nat.
Proof.
  split; [reflexivity |].
  destruct (singleton_outside_production development 1 idle eq_refl)
    as (b & Hb & _ & Hc & H1 & _).
  simpl in Hc. rewrite Hc.
  injection H1 as <-.
  split; [exact Hb | reflexivity].
Defined.

Lemma production_reads_but_never_writes_slot_witness :
  isProd production = true /\
  globalSlot (snd (module_body production idle)) = None /\
  fst (module_body production idle) = Normal client0.
Proof.
  split; [reflexivity |].
  destruct (production_reads_but_never_writes_slot production idle
              eq_refl) as (Hs & Hb & _).
  split; [exact Hs | exact Hb].
Defined.

Lemma sizeHint_array_length_witness :
  List.length [JsNull; JsNull] = List.length [JsNumber 1; JsString "a"] /\
  sizeHint (JsArray [JsNull; JsNull])
  = sizeHint (JsArray [JsNumber 1; JsString "a"]).
Proof.
  split; [reflexivity |].
  apply (proj2 (sizeHint_array_length [JsNull; JsNull]
                  [JsNumber 1; JsString "a"])).
  reflexivity.
Defined.

Lemma failure_is_mode_independent_witness :
  unwrapped JsUndefined unique_violation idle
  = (Thrown (JsString "P2002"),
     snd (unwrapped JsUndefined unique_violation idle)) /\
  allOperations development "User" "create" JsUndefined unique_violation idle
  = allOperations production "User" "create" JsUndefined unique_violation idle.
Proof.
  split; [reflexivity |].
  exact (failure_is_mode_independent development production
           "User" "create" JsUndefined unique_violation idle
           (snd (unwrapped JsUndefined unique_violation idle))
           (JsString "P2002") eq_refl).
Defined.

Lemma beforeExit_failure_propagates_witness :
  refuses client0 (engine idle) (clock idle)
  = (Thrown (JsString "ECONNRESET"), true, 1003%Z) /\
  fst (run_listener refuses development client0 BeforeExitListener idle)
  = Thrown (JsString "ECONNRESET") /\
  console (snd (run_listener refuses development client0
                  BeforeExitListener idle)) = [beforeExitLine].
Proof.
  split; [reflexivity |].
  destruct (beforeExit_failure_propagates refuses development client0 idle
              (JsString "ECONNRESET") true 1003%Z eq_refl)
    as (H1 & _ & H2 & _).
  split; [exact H1 | exact H2].
Defined.

Lemma shutdown_keeps_singleton_witness :
  isProd development = false /\
  exists b : PrismaClient,
    fst (module_body development idle) = Normal b /\
    fst (module_body development
           (snd (gracefulExit closes b "SIGTERM"
                   (snd (module_body development idle))))) = Normal b.
Proof.
  split; [reflexivity |].
  destruct (shutdown_keeps_singleton closes development "SIGTERM" idle
              eq_refl) as (b & H1 & _ & _ & _ & _ & H2 & _).
  exists b. split; [exact H1 | exact H2].
Defined.

Lemma query_level_never_enabled_witness :
  globalSlot idle = None /\
  exists b : PrismaClient,
    fst (module_body development idle) = Normal b /\
    ~ In LogQuery (log (clientOptions b)) /\
    In LogInfo (log (clientOptions b)).
Proof.
  split; [reflexivity |].
  destruct (query_level_never_enabled development idle eq_refl)
    as (b & H1 & H2 & _ & _ & H3).
  exists b. split; [exact H1 |]. split; [exact H2 |].
  apply H3. reflexivity.
Defined.

Lemma production_never_reuses_witness :
  isProd production = true /\
  globalSlot idle = None /\
  fst (reload production 3 idle)
  = [ {| clientId := 0; clientOptions := prismaOptions production |};
      {| clientId := 1; clientOptions := prismaOptions production |};
      {| clientId := 2; clientOptions := prismaOptions production |} ] /\
  List.length (constructed (snd (reload production 3 idle))) = 3%nat.
Proof.
  split; [reflexivity |]. split; [reflexivity |].
  destruct (production_never_reuses production 3 idle eq_refl eq_refl)
    as (H1 & H2 & _).
  split; [exact H1 |].
  rewrite H2, H1. reflexivity.
Defined.
